(** * The RHDA stack-analysis workflow (src/stackAnalysis.ts)

    A shallow embedding of the report-generation workflow of the extension:
    [updateWebviewPanel], [writeReportToFile], [executeStackAnalysis],
    [triggerWebviewPanel] and [generateRHDAReport].

    The workflow is glue around collaborators that live outside the file
    (the editor API, Node's [fs] and [path], the analysis service, the
    configuration object and the report panel).  They are modelled by an
    explicit world state, an event trace and an environment record that
    fixes how each collaborator answers. *)

From Stdlib Require Import String Ascii List Bool Arith Lia.
From stdpp Require Import base option list strings gmap.

Local Open Scope string_scope.

(** ** JavaScript values *)

(** The primitive values that reach this file: configuration fields, the
    [fsPath] of a URI, option-bag entries. *)
Inductive jsval : Type :=
| JUndefined
| JNull
| JBool (b : bool)
| JStr (s : string).

#[global] Instance jsval_eq_dec : EqDecision jsval.
Proof. solve_decision. Defined.

(** ToBoolean. *)
Definition truthy (v : jsval) : bool :=
  match v with
  | JUndefined | JNull => false
  | JBool b => b
  | JStr s => negb (String.eqb s EmptyString)
  end.

(** ToString, as a template literal applies it. *)
Definition js_to_string (v : jsval) : string :=
  match v with
  | JUndefined => "undefined"
  | JNull => "null"
  | JBool true => "true"
  | JBool false => "false"
  | JStr s => s
  end.

(** [a !== b] on primitives. *)
Definition strict_neq (a b : jsval) : bool := negb (bool_decide (a = b)).

(** [a || b]. *)
Definition js_or (a b : jsval) : jsval := if truthy a then a else b.

(** A thrown value or rejection reason.  Two errors are the same object
    exactly when they are equal here. *)
Record error : Type := Error { err_name : string; err_message : string }.

#[global] Instance error_eq_dec : EqDecision error.
Proof. solve_decision. Defined.

(** What Node's [path] functions throw on a non-string argument. *)
Definition ERR_INVALID_ARG_TYPE : error :=
  Error "TypeError" "The path argument must be of type string".

(** ** Configuration and the option bag *)

(** The fields of [globalConfig] that the workflow reads. *)
Record Config : Type := {
  telemetryId : jsval;
  utmSource : jsval;
  matchManifestVersions : jsval;
  exhortMvnPath : jsval;
  exhortNpmPath : jsval;
  exhortGoPath : jsval;
  exhortPython3Path : jsval;
  exhortPip3Path : jsval;
  exhortPythonPath : jsval;
  exhortPipPath : jsval;
  exhortSnykToken : jsval;
  exhortOSSIndexUser : jsval;
  exhortOSSIndexToken : jsval;
  rhdaReportFilePath : jsval
}.

(** The option bag is a plain object used as a map from key to value.  A key
    assigned [undefined] is still an own property of the object. *)
Abbreviation options := (gmap string jsval).

(** The object literal of lines 68-79. *)
Definition base_options (cfg : Config) : options :=
  <["EXHORT_PIP_PATH" := exhortPipPath cfg]>
  (<["EXHORT_PYTHON_PATH" := exhortPythonPath cfg]>
  (<["EXHORT_PIP3_PATH" := exhortPip3Path cfg]>
  (<["EXHORT_PYTHON3_PATH" := exhortPython3Path cfg]>
  (<["EXHORT_GO_PATH" := exhortGoPath cfg]>
  (<["EXHORT_NPM_PATH" := exhortNpmPath cfg]>
  (<["EXHORT_MVN_PATH" := exhortMvnPath cfg]>
  (<["MATCH_MANIFEST_VERSIONS" := matchManifestVersions cfg]>
  (<["RHDA_SOURCE" := utmSource cfg]>
  (<["RHDA_TOKEN" := telemetryId cfg]> ∅))))))))).

(** Lines 81-83. *)
Definition add_snyk_token (cfg : Config) (o : options) : options :=
  if strict_neq (exhortSnykToken cfg) (JStr EmptyString)
  then <["EXHORT_SNYK_TOKEN" := exhortSnykToken cfg]> o
  else o.

(** Lines 85-88. *)
Definition add_oss_index (cfg : Config) (o : options) : options :=
  if strict_neq (exhortOSSIndexUser cfg) (JStr EmptyString)
     && strict_neq (exhortOSSIndexToken cfg) (JStr EmptyString)
  then <["EXHORT_OSS_INDEX_TOKEN" := exhortOSSIndexToken cfg]>
       (<["EXHORT_OSS_INDEX_USER" := exhortOSSIndexUser cfg]> o)
  else o.

(** The option bag handed to the analysis service (lines 68-88). *)
Definition build_options (cfg : Config) : options :=
  add_oss_index cfg (add_snyk_token cfg (base_options cfg)).



(** ** Node's [path] module *)

(** [path.basename] and [path.dirname] on strings.  The module is
    platform-specific (POSIX or Windows rules), so the workflow is stated
    over any implementation. *)
Class PathModule : Type := {
  basename : string → string;
  dirname : string → string
}.

Definition slash : ascii := "/"%char.

Definition is_slash (c : ascii) : bool := Ascii.eqb c slash.

Fixpoint drop_while {A} (f : A → bool) (l : list A) : list A :=
  match l with
  | [] => []
  | x :: l' => if f x then drop_while f l' else l
  end.

Fixpoint take_while {A} (f : A → bool) (l : list A) : list A :=
  match l with
  | [] => []
  | x :: l' => if f x then x :: take_while f l' else []
  end.

(** [path.posix.basename] without a suffix: trailing separators are
    skipped, then the last segment is returned. *)
Definition posix_basename (p : string) : string :=
  let r := drop_while is_slash (rev (list_ascii_of_string p)) in
  string_of_list_ascii (rev (take_while (λ c, negb (is_slash c)) r)).

(** [path.posix.dirname]: the scan runs from the last character down to
    index 1, skips trailing separators, then the last segment, and cuts at
    the separator it meets. *)
Definition posix_dirname (p : string) : string :=
  match list_ascii_of_string p with
  | [] => "."
  | c0 :: rest =>
      let r1 := drop_while is_slash (rev rest) in
      let r2 := drop_while (λ c, negb (is_slash c)) r1 in
      match r2 with
      | [] => if is_slash c0 then "/" else "."
      | _ :: r3 =>
          match r3 with
          | [] => if is_slash c0 then "//" else string_of_list_ascii [c0]
          | _ => string_of_list_ascii (c0 :: rev r3)
          end
      end
  end.

Definition posix : PathModule :=
  {| basename := posix_basename; dirname := posix_dirname |}.

(** The directories [mkdir -p] makes sure exist: the path and its chain of
    parents. *)
Fixpoint ancestors `{PathModule} (fuel : nat) (p : string) : list string :=
  match fuel with
  | O => [p]
  | S n => p :: ancestors n (dirname p)
  end.

(** ** Events, world and environment *)

(** Messages of [StatusMessages]. *)
Inductive status_message : Type :=
| WIN_ANALYZING_DEPENDENCIES
| WIN_GENERATING_DEPENDENCIES
| WIN_SUCCESS_DEPENDENCY_ANALYSIS
| WIN_FAILURE_DEPENDENCY_ANALYSIS.

(** The extension context is opaque to the workflow. *)
Definition context : Type := nat.

(** Calls that leave this file, in the order they are made. *)
Inductive event : Type :=
| EvBasename (p : string)
| EvDirname (p : string)
| EvAuthorize (ctx : context)
| EvCreateOrShowPanel
| EvWithProgress
| EvReport (m : status_message)
| EvStackAnalysis (manifest : jsval) (o : options)
| EvExistsSync (p : string)
| EvMkdir (p : string)
| EvWriteFile (p : string) (data : string)
| EvDoUpdatePanel (data : string)
| EvShowInformationMessage (msg : string).

(** A promise, seen by the code that awaits it. *)
Inductive promise (A : Type) : Type :=
| Fulfilled (a : A)
| Rejected (e : error)
| Pending.
Arguments Fulfilled {A} a.
Arguments Rejected {A} e.
Arguments Pending {A}.

(** The part of the host that the workflow reads and writes: the
    directories and files on disk, whether [DependencyReportPanel.currentPanel]
    is set, the state of the promise whose executor is running, and the
    calls made so far (oldest first). *)
Record World : Type := {
  w_dirs : gset string;
  w_files : gmap string string;
  w_panel : bool;
  w_cell : promise unit;
  w_trace : list event
}.

(** A call of the analysis service either throws before returning a
    promise or returns one. *)
Inductive service_answer : Type :=
| SvcThrows (e : error)
| SvcReturns (p : promise string).

(** The points at which the workflow is suspended on I/O and the user can
    close the report panel. *)
Inductive suspension : Type :=
| DuringAuthorization
| DuringAnalysis
| DuringWrite.

(** How the collaborators answer in one run. *)
Record Env : Type := {
  globalConfig : Config;
  globalConfig_fault : option error;
  authorizeRHDA_answer : context → promise unit;
  stackAnalysisService_answer : jsval → options → service_answer;
  mkdirSync_fault : option error;
  writeFile_fault : option error;
  writeFile_partial : option nat;
  panel_closed : suspension → bool
}.

(** ** A state and exception monad for the workflow *)

(** The result of running a piece of code: it returns, throws, or stays
    suspended on a promise that never settles. *)
Inductive res (A : Type) : Type :=
| Val (a : A)
| Exn (e : error)
| Hang.
Arguments Val {A} a.
Arguments Exn {A} e.
Arguments Hang {A}.

Definition M (A : Type) : Type := World → res A * World.

Definition ret {A} (a : A) : M A := λ w, (Val a, w).

Definition bind {A B} (m : M A) (f : A → M B) : M B := λ w,
  match m w with
  | (Val a, w') => f a w'
  | (Exn e, w') => (Exn e, w')
  | (Hang, w') => (Hang, w')
  end.

Declare Scope workflow_scope.
Delimit Scope workflow_scope with workflow.
Notation "x ← y ; z" := (bind y (λ x, z))
  (at level 20, y at level 100, z at level 200, only parsing) : workflow_scope.
Notation "y ;; z" := (bind y (λ _, z))
  (at level 100, z at level 200, only parsing, right associativity)
  : workflow_scope.
Local Open Scope workflow_scope.

Definition throw {A} (e : error) : M A := λ w, (Exn e, w).

(** [try { m } catch (err) { h err }]. *)
Definition try_catch {A} (m : M A) (h : error → M A) : M A := λ w,
  match m w with
  | (Exn e, w') => h e w'
  | r => r
  end.

Definition get_world : M World := λ w, (Val w, w).

Definition modify (f : World → World) : M unit := λ w, (Val tt, f w).

Definition set_dirs (d : gset string) (w : World) : World :=
  {| w_dirs := d; w_files := w_files w; w_panel := w_panel w;
     w_cell := w_cell w; w_trace := w_trace w |}.

Definition set_files (f : gmap string string) (w : World) : World :=
  {| w_dirs := w_dirs w; w_files := f; w_panel := w_panel w;
     w_cell := w_cell w; w_trace := w_trace w |}.

Definition set_panel (b : bool) (w : World) : World :=
  {| w_dirs := w_dirs w; w_files := w_files w; w_panel := b;
     w_cell := w_cell w; w_trace := w_trace w |}.

Definition set_cell (c : promise unit) (w : World) : World :=
  {| w_dirs := w_dirs w; w_files := w_files w; w_panel := w_panel w;
     w_cell := c; w_trace := w_trace w |}.

Definition add_event (e : event) (w : World) : World :=
  {| w_dirs := w_dirs w; w_files := w_files w; w_panel := w_panel w;
     w_cell := w_cell w; w_trace := w_trace w ++ [e] |}.

Definition log (e : event) : M unit := modify (add_event e).

(** *** Promises *)

(** [await p]. *)
Definition await {A} (p : promise A) : M A := λ w,
  match p with
  | Fulfilled a => (Val a, w)
  | Rejected e => (Exn e, w)
  | Pending => (Hang, w)
  end.

(** Calling [async () => { body }]: the body runs up to its end or to an
    await that never resumes, and the caller gets the promise. *)
Definition async_fn {A} (body : M A) : M (promise A) := λ w,
  match body w with
  | (Val a, w') => (Val (Fulfilled a), w')
  | (Exn e, w') => (Val (Rejected e), w')
  | (Hang, w') => (Val Pending, w')
  end.

(** An async function whose body returns a promise adopts its state. *)
Definition async_returning {A} (body : M (promise A)) : M (promise A) := λ w,
  match body w with
  | (Val p, w') => (Val p, w')
  | (Exn e, w') => (Val (Rejected e), w')
  | (Hang, w') => (Val Pending, w')
  end.

(** The first of [resolve] and [reject] settles a promise; later calls are
    ignored. *)
Definition settle (c : promise unit) (w : World) : World :=
  match w_cell w with
  | Pending => set_cell c w
  | _ => w
  end.

Definition resolve : M unit := modify (settle (Fulfilled tt)).

Definition reject (e : error) : M unit := modify (settle (Rejected e)).

(** [new Promise(executor)]: the executor runs at once with [resolve] and
    [reject] bound to the new promise; if it throws, the promise is
    rejected with what it threw.  The promise of the enclosing executor is
    put back afterwards. *)
Definition new_Promise {B} (executor : M B) : M (promise unit) := λ w,
  let saved := w_cell w in
  let '(r, w') := executor (set_cell Pending w) in
  let w'' := match r with Exn e => settle (Rejected e) w' | _ => w' end in
  (Val (w_cell w''), set_cell saved w'').

(** [p.then(f)] for an async callback [f]. *)
Definition promise_then {A B} (p : promise A) (f : A → M (promise B))
  : M (promise B) :=
  match p with
  | Fulfilled a => f a
  | Rejected e => ret (Rejected e)
  | Pending => ret Pending
  end.

(** [p.catch(g)] for a plain callback [g]. *)
Definition promise_catch {A} (p : promise A) (g : error → M A)
  : M (promise A) :=
  match p with
  | Rejected e => async_fn (g e)
  | _ => ret p
  end.

(** ** The workflow *)

(** What a failed [fs.writeFile] leaves on disk.  The file is opened with
    flag [w]: when it cannot be opened nothing changes ([None]); once it
    is open it has been truncated, and the first [n] characters of the
    data may have reached it before the error ([Some n]).  Nothing is
    cleaned up. *)
Definition after_failed_write (partial : option nat) (p data : string)
    (files : gmap string string) : gmap string string :=
  match partial with
  | None => files
  | Some n => <[p := String.substring 0 n data]> files
  end.

(** What [fs.existsSync] answers: the path names a directory or a file. *)
Definition exists_on_disk (dirs : gset string) (files : gmap string string)
    (p : string) : bool :=
  bool_decide (p ∈ dirs) || bool_decide (is_Some (files !! p)).

Record Uri : Type := { fsPath : jsval }.

(** Lines 12-17. *)
Definition supportedFiles : list string :=
  ["pom.xml"; "package.json"; "go.mod"; "requirements.txt"].

(** [supportedFiles.includes(name)]. *)
Definition includes (l : list string) (name : string) : bool :=
  existsb (String.eqb name) l.

Section Workflow.
Context `{PathModule}.

(** The constant of that name in constants.ts. *)
Variable defaultRhdaReportFilePath : string.

Variable env : Env.

(** *** Collaborators *)

(** [path.basename] and [path.dirname] refuse anything but a string. *)
Definition path_basename (v : jsval) : M string :=
  match v with
  | JStr s => log (EvBasename s);; ret (basename s)
  | _ => throw ERR_INVALID_ARG_TYPE
  end.

Definition path_dirname (v : jsval) : M string :=
  match v with
  | JStr s => log (EvDirname s);; ret (dirname s)
  | _ => throw ERR_INVALID_ARG_TYPE
  end.

(** Reading [globalConfig]; an accessor may throw. *)
Definition read_globalConfig : M Config :=
  match globalConfig_fault env with
  | Some e => throw e
  | None => ret (globalConfig env)
  end.

(** The user may close the panel while the workflow waits on I/O. *)
Definition user_may_close (s : suspension) : M unit :=
  modify (λ w, set_panel (w_panel w && negb (panel_closed env s)) w).

Definition fs_existsSync (p : string) : M bool :=
  log (EvExistsSync p);;
  w ← get_world;
  ret (exists_on_disk (w_dirs w) (w_files w) p).

(** [fs.mkdirSync(p, { recursive: true })]. *)
Definition fs_mkdirSync (p : string) : M unit :=
  log (EvMkdir p);;
  match mkdirSync_fault env with
  | Some e => throw e
  | None =>
      modify (λ w, set_dirs
        (w_dirs w ∪ list_to_set (ancestors (String.length p) p)) w)
  end.

(** [fs.writeFile(p, data, callback)]: the file is replaced by [data],
    or the callback gets the error and the disk is left as
    [after_failed_write] says. *)
Definition fs_writeFile {A} (p : string) (data : string)
    (callback : option error → M A) : M A :=
  log (EvWriteFile p data);;
  user_may_close DuringWrite;;
  match writeFile_fault env with
  | Some e =>
      modify (λ w, set_files
        (after_failed_write (writeFile_partial env) p data (w_files w)) w);;
      callback (Some e)
  | None =>
      modify (λ w, set_files (<[p := data]> (w_files w)) w);;
      callback None
  end.

Definition globalConfig_authorizeRHDA (ctx : context) : M (promise unit) :=
  log (EvAuthorize ctx);;
  user_may_close DuringAuthorization;;
  ret (authorizeRHDA_answer env ctx).

(** Modelled from the spec: dependencyReportPanel.ts is not part of the
    sources; [createOrShowWebviewPanel] shows (or reuses) the display
    panel, after which [DependencyReportPanel.currentPanel] is set. *)
Definition DependencyReportPanel_createOrShowWebviewPanel : M unit :=
  log EvCreateOrShowPanel;;
  modify (set_panel true).

Definition DependencyReportPanel_currentPanel : M bool :=
  w ← get_world; ret (w_panel w).

Definition doUpdatePanel (data : string) : M unit :=
  log (EvDoUpdatePanel data).

Definition stackAnalysisService (manifest : jsval) (o : options)
  : M (promise string) :=
  log (EvStackAnalysis manifest o);;
  match stackAnalysisService_answer env manifest o with
  | SvcThrows e => throw e
  | SvcReturns p => user_may_close DuringAnalysis;; ret p
  end.

(** [vscode.window.withProgress(options, task)] runs the task and hands
    back its promise. *)
Definition withProgress {A} (task : M (promise A)) : M (promise A) :=
  log EvWithProgress;; task.

Definition p_report (m : status_message) : M unit := log (EvReport m).

Definition showInformationMessage (msg : string) : M unit :=
  log (EvShowInformationMessage msg).

(** *** Lines 23-27 *)
Definition updateWebviewPanel (data : string) : M unit :=
  panel ← DependencyReportPanel_currentPanel;
  if panel then doUpdatePanel data else ret tt.

(** *** Lines 34-51 *)
Definition reportFilePath (cfg : Config) : jsval :=
  js_or (rhdaReportFilePath cfg) (JStr defaultRhdaReportFilePath).

Definition writeReportToFile (data : string) : M (promise unit) :=
  new_Promise (
    cfg ← read_globalConfig;
    let reportFilePath := reportFilePath cfg in
    reportDirectoryPath ← path_dirname reportFilePath;
    present ← fs_existsSync reportDirectoryPath;
    (if negb present then fs_mkdirSync reportDirectoryPath else ret tt);;
    fs_writeFile (js_to_string reportFilePath) data (λ err,
      match err with
      | Some e => reject e
      | None => resolve
      end)).

(** *** Lines 58-125 *)
Definition executeStackAnalysis (manifestFilePath : jsval)
  : M (promise unit) :=
  async_fn (
    try_catch
      (pr ← withProgress (async_returning (new_Promise (async_fn (
         try_catch
           (p_report WIN_ANALYZING_DEPENDENCIES;;
            cfg ← read_globalConfig;
            let options := build_options cfg in
            service ← stackAnalysisService manifestFilePath options;
            handled ← promise_then service (λ resp, async_fn (
              p_report WIN_GENERATING_DEPENDENCIES;;
              written ← writeReportToFile resp;
              await written;;
              updateWebviewPanel resp;;
              p_report WIN_SUCCESS_DEPENDENCY_ANALYSIS;;
              resolve));
            caught ← promise_catch handled (λ err,
              p_report WIN_FAILURE_DEPENDENCY_ANALYSIS;;
              reject err);
            await caught)
           (λ err,
              p_report WIN_ANALYZING_DEPENDENCIES;;
              reject err)))));
       await pr)
      (λ err, throw err)).

(** *** Lines 132-135 *)
Definition triggerWebviewPanel (ctx : context) : M (promise unit) :=
  async_fn (
    authorized ← globalConfig_authorizeRHDA ctx;
    await authorized;;
    DependencyReportPanel_createOrShowWebviewPanel).

(** *** Lines 143-159 *)
Definition generateRHDAReport (ctx : context) (uri : Uri)
  : M (promise unit) :=
  async_fn (
    supported ←
      (if truthy (fsPath uri)
       then name ← path_basename (fsPath uri);
            ret (includes supportedFiles name)
       else ret false);
    if supported
    then
      try_catch
        (triggered ← triggerWebviewPanel ctx;
         await triggered;;
         analysed ← executeStackAnalysis (fsPath uri);
         await analysed)
        (λ err : error,
           updateWebviewPanel "error";;
           throw err)
    else
      showInformationMessage
        ("File " ++ js_to_string (fsPath uri) ++ " is not supported!!")).

End Workflow.

(** ** Reading a trace *)

Definition panel_updates (tr : list event) : list string :=
  omap (λ e, match e with EvDoUpdatePanel d => Some d | _ => None end) tr.

Definition analysis_calls (tr : list event) : list (jsval * options) :=
  omap (λ e, match e with EvStackAnalysis m o => Some (m, o) | _ => None end) tr.

Definition authorize_calls (tr : list event) : list context :=
  omap (λ e, match e with EvAuthorize c => Some c | _ => None end) tr.

Definition panel_openings (tr : list event) : nat :=
  length (omap (λ e, match e with EvCreateOrShowPanel => Some tt | _ => None end) tr).

Definition information_messages (tr : list event) : list string :=
  omap (λ e, match e with EvShowInformationMessage m => Some m | _ => None end) tr.

Definition progress_reports (tr : list event) : list status_message :=
  omap (λ e, match e with EvReport m => Some m | _ => None end) tr.

Definition basename_calls (tr : list event) : list string :=
  omap (λ e, match e with EvBasename p => Some p | _ => None end) tr.

Definition mkdir_calls (tr : list event) : list string :=
  omap (λ e, match e with EvMkdir p => Some p | _ => None end) tr.

Definition write_calls (tr : list event) : list (string * string) :=
  omap (λ e, match e with EvWriteFile p d => Some (p, d) | _ => None end) tr.

(** [tr] is what a run from [w] to [w'] added to the trace. *)
Definition run_trace (w w' : World) (tr : list event) : Prop :=
  w_trace w' = (w_trace w ++ tr)%list.

(** Scanning a trace: no analysis call before an authorization call has
    been seen. *)
Fixpoint authorized_first (authorized : bool) (tr : list event) : bool :=
  match tr with
  | [] => true
  | EvAuthorize _ :: tr' => authorized_first true tr'
  | EvStackAnalysis _ _ :: tr' => authorized && authorized_first authorized tr'
  | _ :: tr' => authorized_first authorized tr'
  end.

(** Every analysis call of [tr] has an authorization call before it. *)
Definition authorization_precedes_analysis (tr : list event) : Prop :=
  ∀ before m o after,
    tr = (before ++ EvStackAnalysis m o :: after)%list →
    ∃ c, EvAuthorize c ∈ before.

(** Scanning a trace: no file write after a panel update has been seen. *)
Fixpoint written_first (updated : bool) (tr : list event) : bool :=
  match tr with
  | [] => true
  | EvDoUpdatePanel _ :: tr' => written_first true tr'
  | EvWriteFile _ _ :: tr' => negb updated && written_first updated tr'
  | _ :: tr' => written_first updated tr'
  end.

(** No panel update comes before a file write of [tr]. *)
Definition write_precedes_updates (tr : list event) : Prop :=
  ∀ before p d after,
    tr = (before ++ EvWriteFile p d :: after)%list →
    panel_updates before = [].

(** ** Example inputs *)

Definition make_config (snyk user token report : jsval) : Config := {|
  telemetryId := JStr "0000-1111";
  utmSource := JStr "vscode";
  matchManifestVersions := JBool true;
  exhortMvnPath := JStr "mvn";
  exhortNpmPath := JStr "npm";
  exhortGoPath := JStr "go";
  exhortPython3Path := JStr "python3";
  exhortPip3Path := JStr "pip3";
  exhortPythonPath := JStr "python";
  exhortPipPath := JStr "pip";
  exhortSnykToken := snyk;
  exhortOSSIndexUser := user;
  exhortOSSIndexToken := token;
  rhdaReportFilePath := report
|}.

Definition empty_string : jsval := JStr EmptyString.

(** No credentials, a report path three directories below the root. *)
Definition plain_config : Config :=
  make_config empty_string empty_string empty_string
    (JStr "/home/dev/reports/rhda/report.html").

Definition example_default_path : string :=
  "/tmp/redhatDependencyAnalyticsReport.html".

Definition make_env (cfg : Config) (answer : service_answer)
    (write_fault : option error) (closed : suspension → bool) : Env := {|
  globalConfig := cfg;
  globalConfig_fault := None;
  authorizeRHDA_answer := λ _, Fulfilled tt;
  stackAnalysisService_answer := λ _ _, answer;
  mkdirSync_fault := None;
  writeFile_fault := write_fault;
  writeFile_partial := Some 0;
  panel_closed := closed
|}.

Definition never_closed : suspension → bool := λ _, false.

Definition closed_during_analysis : suspension → bool :=
  λ s, match s with DuringAnalysis => true | _ => false end.

(** A disk that holds the root directory and nothing else; no panel is
    open and nothing has been called yet. *)
Definition fresh_world : World := {|
  w_dirs := {["/"]};
  w_files := ∅;
  w_panel := false;
  w_cell := Pending;
  w_trace := []
|}.

Definition pom_uri : Uri := {| fsPath := JStr "/work/app/pom.xml" |}.

Definition readme_uri : Uri := {| fsPath := JStr "/work/app/README.md" |}.

Definition ECONNRESET : error := Error "Error" "socket hang up".

Definition EACCES : error := Error "Error" "EACCES: permission denied".

Definition config_unavailable : error :=
  Error "TypeError" "Cannot read properties of undefined".

Definition example_payload : string := "<html>report</html>".

Definition env_success : Env :=
  make_env plain_config (SvcReturns (Fulfilled example_payload)) None
    never_closed.

Definition env_success_panel_closed : Env :=
  make_env plain_config (SvcReturns (Fulfilled example_payload)) None
    closed_during_analysis.

Definition env_rejecting : Env :=
  make_env plain_config (SvcReturns (Rejected ECONNRESET)) None never_closed.

Definition env_rejecting_panel_closed : Env :=
  make_env plain_config (SvcReturns (Rejected ECONNRESET)) None
    closed_during_analysis.

Definition env_write_fails : Env :=
  make_env plain_config (SvcReturns (Fulfilled example_payload))
    (Some EACCES) never_closed.

Definition closed_during_write : suspension → bool :=
  λ s, match s with DuringWrite => true | _ => false end.

Definition env_write_fails_panel_closed : Env :=
  make_env plain_config (SvcReturns (Fulfilled example_payload))
    (Some EACCES) closed_during_write.

(** The configuration object cannot be read. *)
Definition env_config_throws : Env := {|
  globalConfig := plain_config;
  globalConfig_fault := Some config_unavailable;
  authorizeRHDA_answer := λ _, Fulfilled tt;
  stackAnalysisService_answer := λ _ _, SvcReturns Pending;
  mkdirSync_fault := None;
  writeFile_fault := None;
  writeFile_partial := None;
  panel_closed := never_closed
|}.



Definition undefined_uri : Uri := {| fsPath := JUndefined |}.

(** One run of the workflow under POSIX path rules, from [fresh_world]. *)
Definition example_run (env : Env) (uri : Uri) : res (promise unit) * World :=
  generateRHDAReport (H := posix) example_default_path env 7 uri fresh_world.

(** ** Further example inputs *)

(** The keys of the object literal of lines 68-79. *)
Definition base_keys : list string :=
  ["RHDA_TOKEN"; "RHDA_SOURCE"; "MATCH_MANIFEST_VERSIONS"; "EXHORT_MVN_PATH";
   "EXHORT_NPM_PATH"; "EXHORT_GO_PATH"; "EXHORT_PYTHON3_PATH";
   "EXHORT_PIP3_PATH"; "EXHORT_PYTHON_PATH"; "EXHORT_PIP_PATH"].

Definition EAUTH : error := Error "Error" "authorization failed".

(** Authorization is refused. *)
Definition env_unauthorized : Env := {|
  globalConfig := plain_config;
  globalConfig_fault := None;
  authorizeRHDA_answer := λ _, Rejected EAUTH;
  stackAnalysisService_answer := λ _ _, SvcReturns (Fulfilled example_payload);
  mkdirSync_fault := None;
  writeFile_fault := None;
  writeFile_partial := None;
  panel_closed := never_closed
|}.

(** The analysis service never answers. *)
Definition env_silent : Env :=
  make_env plain_config (SvcReturns Pending) None never_closed.

Definition second_payload : string := "<html>second report</html>".

Definition env_second_success : Env :=
  make_env plain_config (SvcReturns (Fulfilled second_payload)) None
    never_closed.

(** A world in which a report panel from an earlier run is still open. *)
Definition world_with_panel : World := {|
  w_dirs := {["/"]};
  w_files := ∅;
  w_panel := true;
  w_cell := Pending;
  w_trace := []
|}.

(** * Proofs *)

(** ** Symbolic execution of the workflow *)

Ltac wf_unfold :=
  unfold generateRHDAReport, triggerWebviewPanel, executeStackAnalysis,
    writeReportToFile, updateWebviewPanel, showInformationMessage, p_report,
    withProgress, stackAnalysisService, doUpdatePanel,
    DependencyReportPanel_currentPanel,
    DependencyReportPanel_createOrShowWebviewPanel,
    globalConfig_authorizeRHDA, fs_writeFile, fs_mkdirSync, fs_existsSync,
    user_may_close, read_globalConfig, path_dirname, path_basename,
    promise_catch, promise_then, new_Promise, reject, resolve,
    async_returning, async_fn, await, log, modify, get_world, try_catch,
    throw, bind, ret in *.

Ltac wf_simpl :=
  cbn [fst snd w_dirs w_files w_panel w_cell w_trace set_dirs set_files
       set_panel set_cell add_event settle negb andb orb
       globalConfig globalConfig_fault authorizeRHDA_answer
       stackAnalysisService_answer mkdirSync_fault writeFile_fault
       writeFile_partial
       panel_closed fsPath js_to_string] in *.

(** Split on the next answer of the environment that the run waits for. *)
Ltac wf_case :=
  match goal with
  | |- context [authorizeRHDA_answer ?e ?c] =>
      destruct (authorizeRHDA_answer e c) as [[]| |] eqn:?
  | |- context [globalConfig_fault ?e] =>
      destruct (globalConfig_fault e) eqn:?
  | |- context [stackAnalysisService_answer ?e ?m ?o] =>
      destruct (stackAnalysisService_answer e m o) as [|[| |]] eqn:?
  | |- context [reportFilePath ?d ?c] =>
      destruct (reportFilePath d c) eqn:?
  | |- context [exists_on_disk ?d ?f ?p] =>
      destruct (exists_on_disk d f p) eqn:?
  | |- context [mkdirSync_fault ?e] =>
      destruct (mkdirSync_fault e) eqn:?
  | |- context [writeFile_fault ?e] =>
      destruct (writeFile_fault e) eqn:?
  | |- context [if ?b then _ else _] => destruct b eqn:?
  end; wf_simpl.

(** The events a computed run added to the trace. *)
Ltac wf_trace :=
  unfold run_trace; wf_simpl; rewrite <- ?app_assoc; reflexivity.

(** Name the final world and the added events of a computed run. *)
Ltac wf_result :=
  do 2 eexists; split; [reflexivity|]; split; [wf_trace|]; wf_simpl.

(** ** Auxiliary lemmas *)





Lemma includes_spec (l : list string) (name : string) :
  includes l name = true ↔ name ∈ l.
Proof.
  unfold includes. rewrite existsb_exists. split.
  - intros (x & Hin & Heq). apply String.eqb_eq in Heq. subst x.
    by apply list_elem_of_In.
  - intros Hin. exists name. split; [by apply list_elem_of_In|].
    apply String.eqb_refl.
Qed.

Lemma includes_false (l : list string) (name : string) :
  name ∉ l → includes l name = false.
Proof.
  intros Hn. destruct (includes l name) eqn:E; [|done].
  by apply includes_spec in E.
Qed.

Lemma truthy_JStr (s : string) : s ≠ EmptyString → truthy (JStr s) = true.
Proof. intros Hs. cbn. apply negb_true_iff. by apply String.eqb_neq. Qed.

Lemma after_failed_write_other (partial : option nat) (p data q : string)
    (files : gmap string string) :
  q ≠ p → after_failed_write partial p data files !! q = files !! q.
Proof.
  intros Hq. destruct partial; cbn; [|done]. by apply lookup_insert_ne.
Qed.

(** *** The option bag *)







(** *** Traces *)

Lemma authorized_first_sound (tr : list event) :
  authorized_first false tr = true → authorization_precedes_analysis tr.
Proof.
  unfold authorization_precedes_analysis.
  induction tr as [|e tr IH]; intros Hscan before m o after Heq.
  - by destruct before.
  - destruct before as [|b before]; cbn in Heq.
    + injection Heq as -> _. cbn in Hscan. discriminate.
    + injection Heq as <- ->.
      destruct e; cbn in Hscan; try discriminate Hscan;
        try (destruct (IH Hscan before m o after eq_refl) as [c Hc];
             exists c; by right).
      exists ctx. by left.
Qed.

Lemma written_first_sound_from (tr : list event) (updated : bool) :
  written_first updated tr = true →
  ∀ before p d after,
    tr = (before ++ EvWriteFile p d :: after)%list →
    updated = false ∧ panel_updates before = [].
Proof.
  revert updated.
  induction tr as [|e tr IH]; intros updated Hscan before p d after Heq.
  - by destruct before.
  - destruct before as [|b before]; cbn in Heq.
    + injection Heq as -> _. cbn in Hscan.
      apply andb_true_iff in Hscan as [Hu _].
      by apply negb_true_iff in Hu.
    + injection Heq as <- ->.
      destruct e; cbn in Hscan;
        try (apply andb_true_iff in Hscan as [Hu Hscan]);
        try (by apply (IH _ Hscan before p d after eq_refl)).
      by destruct (IH _ Hscan before p d after eq_refl).
Qed.

Lemma written_first_sound (tr : list event) :
  written_first false tr = true → write_precedes_updates tr.
Proof.
  intros Hscan before p d after Heq.
  by destruct (written_first_sound_from tr false Hscan before p d after Heq).
Qed.

Lemma iter_dirname_in_ancestors `{PathModule} (fuel k : nat) (p : string) :
  (k ≤ fuel)%nat → Nat.iter k dirname p ∈ ancestors fuel p.
Proof.
  revert k p. induction fuel as [|fuel IH]; intros k p Hk.
  - assert (k = 0) as -> by lia. cbn. by left.
  - cbn [ancestors]. destruct k as [|k]; [by left|].
    right. rewrite Nat.iter_succ_r. apply IH. lia.
Qed.

(** *** The workflow always hands back a promise *)

Lemma generateRHDAReport_returns `{PathModule}
    (dflt : string) (env : Env) (ctx : context) (uri : Uri) (w : World) :
  ∃ pr w', generateRHDAReport dflt env ctx uri w = (Val pr, w').
Proof.
  unfold generateRHDAReport, async_fn.
  match goal with |- context [match ?m w with _ => _ end] =>
    destruct (m w) as [[a|e|] w1] end; eauto.
Qed.

(** What [writeReportToFile] answers depends on the disk only, not on the
    panel or on the calls made before. *)
Lemma writeReportToFile_answer_depends_on_disk `{PathModule}
    (dflt : string) (env : Env) (data : string) (w1 w2 : World) :
  w_dirs w1 = w_dirs w2 →
  w_files w1 = w_files w2 →
  fst (writeReportToFile dflt env data w1)
  = fst (writeReportToFile dflt env data w2).
Proof.
  intros Hd Hf. wf_unfold; wf_simpl.
  repeat (rewrite ?Hd, ?Hf; wf_case); reflexivity.
Qed.

(** ** The option bag (lines 68-88) *)







(** ** Unsupported and missing paths (lines 143-159) *)

(** C3: for every URI whose base file name is not one of the four
    supported names, [generateRHDAReport] never calls the analysis service
    (nor the authorization), shows exactly one informational message,
    which quotes the file path, and its promise is fulfilled. *)
Theorem unsupported_file_is_only_reported `{PathModule}
    (dflt : string) (env : Env) (ctx : context) (uri : Uri) (s : string)
    (w : World) :
  fsPath uri = JStr s →
  basename s ∉ supportedFiles →
  ∃ w' tr,
    generateRHDAReport dflt env ctx uri w = (Val (Fulfilled tt), w')
    ∧ run_trace w w' tr
    ∧ analysis_calls tr = []
    ∧ authorize_calls tr = []
    ∧ panel_updates tr = []
    ∧ information_messages tr = ["File " ++ s ++ " is not supported!!"]
    ∧ w_dirs w' = w_dirs w
    ∧ w_files w' = w_files w.
Proof.
  intros Hp Hn. apply includes_false in Hn.
  destruct uri as [v]; cbn in Hp; subst v.
  wf_unfold; wf_simpl.
  destruct (truthy (JStr s)); wf_simpl; rewrite ?Hn; wf_result; done.
Qed.

Lemma unsupported_file_witness :
  fsPath readme_uri = JStr "/work/app/README.md"
  ∧ (posix_basename "/work/app/README.md" ∉ supportedFiles)
  ∧ ∃ w' tr,
      example_run env_success readme_uri = (Val (Fulfilled tt), w')
      ∧ run_trace fresh_world w' tr
      ∧ analysis_calls tr = []
      ∧ information_messages tr
        = ["File /work/app/README.md is not supported!!"].
Proof.
  assert (Hn : posix_basename "/work/app/README.md" ∉ supportedFiles).
  { intros Hin. apply includes_spec in Hin. vm_compute in Hin.
    discriminate Hin. }
  unfold example_run. split; [reflexivity|]. split; [exact Hn|].
  destruct (unsupported_file_is_only_reported (H := posix)
              example_default_path env_success 7 readme_uri
              "/work/app/README.md" fresh_world eq_refl Hn)
    as (w' & tr & Hrun & Htr & Hcalls & _ & _ & Hmsg & _).
  exists w', tr. split_and!; assumption.
Defined.

(** C9: for every URI whose [fsPath] is falsy (undefined, null or the
    empty string), [generateRHDAReport] takes the unsupported-file branch:
    the one thing it does is show the informational message built from
    that value; [path.basename] is not applied, nothing is authorized, no
    panel is opened, no analysis is run, and the promise is fulfilled. *)
Theorem falsy_path_takes_unsupported_branch `{PathModule}
    (dflt : string) (env : Env) (ctx : context) (uri : Uri) (w : World) :
  truthy (fsPath uri) = false →
  ∃ w' tr,
    generateRHDAReport dflt env ctx uri w = (Val (Fulfilled tt), w')
    ∧ run_trace w w' tr
    ∧ tr = [EvShowInformationMessage
              ("File " ++ js_to_string (fsPath uri) ++ " is not supported!!")]
    ∧ basename_calls tr = []
    ∧ authorize_calls tr = []
    ∧ panel_openings tr = 0
    ∧ analysis_calls tr = [].
Proof.
  intros Hf. wf_unfold. rewrite Hf. wf_simpl. wf_result. done.
Qed.

Lemma falsy_path_witness :
  truthy (fsPath undefined_uri) = false
  ∧ ∃ w' tr,
      example_run env_success undefined_uri = (Val (Fulfilled tt), w')
      ∧ run_trace fresh_world w' tr
      ∧ tr = [EvShowInformationMessage "File undefined is not supported!!"]
      ∧ basename_calls tr = [].
Proof.
  unfold example_run. split; [reflexivity|].
  destruct (falsy_path_takes_unsupported_branch (H := posix)
              example_default_path env_success 7 undefined_uri fresh_world
              eq_refl)
    as (w' & tr & Hrun & Htr & Hshape & Hbase & _).
  exists w', tr. split_and!; assumption.
Defined.

(** The three falsy paths of the claim, run under POSIX rules. *)
Example falsy_paths_messages :
  information_messages
    (w_trace (snd (example_run env_success {| fsPath := JUndefined |})))
  = ["File undefined is not supported!!"]
  ∧ information_messages
      (w_trace (snd (example_run env_success {| fsPath := JNull |})))
    = ["File null is not supported!!"]
  ∧ information_messages
      (w_trace (snd (example_run env_success {| fsPath := empty_string |})))
    = ["File  is not supported!!"].
Proof. split_and!; vm_compute; reflexivity. Qed.

(** ** Ordering of authorization and analysis (lines 132-149) *)

(** C4: for every URI whose base file name is one of the four supported
    names, the run calls [globalConfig.authorizeRHDA] (once, with the
    context it was given), every call of the analysis service in the run
    has that authorization call before it, and the service is called only
    if the authorization was fulfilled. *)
Theorem authorization_comes_before_analysis `{PathModule}
    (dflt : string) (env : Env) (ctx : context) (uri : Uri) (s : string)
    (w : World) :
  fsPath uri = JStr s →
  s ≠ EmptyString →
  basename s ∈ supportedFiles →
  ∃ pr w' tr,
    generateRHDAReport dflt env ctx uri w = (Val pr, w')
    ∧ run_trace w w' tr
    ∧ authorize_calls tr = [ctx]
    ∧ authorization_precedes_analysis tr
    ∧ (analysis_calls tr ≠ [] → authorizeRHDA_answer env ctx = Fulfilled tt).
Proof.
  intros Hp Hs Hb.
  apply truthy_JStr in Hs. apply includes_spec in Hb.
  destruct uri as [v]; cbn in Hp; subst v.
  wf_unfold; wf_simpl. rewrite Hs; wf_simpl. rewrite Hb; wf_simpl.
  repeat wf_case.
  all: do 3 eexists; split; [reflexivity|].
  all: split; [wf_trace|].
  all: split; [reflexivity|].
  all: split; [by apply authorized_first_sound|].
  all: done.
Qed.

Lemma authorization_order_witness :
  fsPath pom_uri = JStr "/work/app/pom.xml"
  ∧ "/work/app/pom.xml" ≠ EmptyString
  ∧ (posix_basename "/work/app/pom.xml" ∈ supportedFiles)
  ∧ ∃ pr w' tr,
      example_run env_success pom_uri = (Val pr, w')
      ∧ run_trace fresh_world w' tr
      ∧ authorize_calls tr = [7]
      ∧ authorization_precedes_analysis tr.
Proof.
  assert (Hb : posix_basename "/work/app/pom.xml" ∈ supportedFiles).
  { apply includes_spec. vm_compute. reflexivity. }
  unfold example_run.
  split; [reflexivity|]. split; [discriminate|]. split; [exact Hb|].
  destruct (authorization_comes_before_analysis (H := posix)
              example_default_path env_success 7 pom_uri "/work/app/pom.xml"
              fresh_world eq_refl ltac:(discriminate) Hb)
    as (pr & w' & tr & Hrun & Htr & Hauth & Horder & _).
  exists pr, w', tr. split_and!; assumption.
Defined.

(** ** The success path (lines 91-105) *)

(** C1, as stated, fails: when the user closes the panel while the remote
    call is in flight, the run succeeds and the report is written, but the
    guard of [updateWebviewPanel] finds no panel and no update is made. *)
Lemma closed_panel_misses_payload_counterexample :
  stackAnalysisService_answer env_success_panel_closed
    (fsPath pom_uri) (build_options plain_config)
  = SvcReturns (Fulfilled example_payload)
  ∧ fst (example_run env_success_panel_closed pom_uri) = Val (Fulfilled tt)
  ∧ w_files (snd (example_run env_success_panel_closed pom_uri))
      !! "/home/dev/reports/rhda/report.html" = Some example_payload
  ∧ panel_updates (w_trace (snd (example_run env_success_panel_closed pom_uri)))
    = [].
Proof. split_and!; vm_compute; reflexivity. Qed.

(** C1 (amended): for every run on a supported manifest in which the
    remote analysis call resolves with payload R and the workflow's promise
    is fulfilled, the report file holds exactly R afterwards (whatever the
    file held is replaced), the file was written once, and the panel
    received exactly one update, with R, if it was still open when the
    write completed; if the panel was closed during the remote call or the
    write, it received none. *)
Theorem successful_run_writes_and_forwards_payload `{PathModule}
    (dflt : string) (env : Env) (ctx : context) (uri : Uri) (s : string)
    (w w' : World) (R : string) :
  fsPath uri = JStr s →
  s ≠ EmptyString →
  basename s ∈ supportedFiles →
  stackAnalysisService_answer env (JStr s) (build_options (globalConfig env))
    = SvcReturns (Fulfilled R) →
  generateRHDAReport dflt env ctx uri w = (Val (Fulfilled tt), w') →
  ∃ p tr,
    reportFilePath dflt (globalConfig env) = JStr p
    ∧ w_files w' = <[p := R]> (w_files w)
    ∧ w_files w' !! p = Some R
    ∧ run_trace w w' tr
    ∧ analysis_calls tr = [(JStr s, build_options (globalConfig env))]
    ∧ write_calls tr = [(p, R)]
    ∧ w_panel w' =
        negb (panel_closed env DuringAnalysis)
        && negb (panel_closed env DuringWrite)
    ∧ panel_updates tr = (if w_panel w' then [R] else []).
Proof.
  intros Hp Hs Hb Hsvc.
  apply truthy_JStr in Hs. apply includes_spec in Hb.
  destruct uri as [v]; cbn in Hp; subst v.
  match goal with |- _ → ?G => set (concl := G) end.
  wf_unfold; wf_simpl. rewrite Hs; wf_simpl. rewrite Hb; wf_simpl.
  repeat (rewrite ?Hsvc; wf_simpl; wf_case);
    intros Hrun; try discriminate Hrun.
  all: injection Hrun as <-; subst concl; wf_simpl.
  all: do 2 eexists; split; [reflexivity|].
  all: split; [reflexivity|].
  all: split; [by rewrite lookup_insert_eq|].
  all: split; [wf_trace|].
  all: done.
Qed.

Lemma successful_run_witness :
  fsPath pom_uri = JStr "/work/app/pom.xml"
  ∧ (posix_basename "/work/app/pom.xml" ∈ supportedFiles)
  ∧ example_run env_success pom_uri
    = (Val (Fulfilled tt), snd (example_run env_success pom_uri))
  ∧ ∃ p tr,
      w_files (snd (example_run env_success pom_uri)) !! p
      = Some example_payload
      ∧ run_trace fresh_world (snd (example_run env_success pom_uri)) tr
      ∧ write_calls tr = [(p, example_payload)]
      ∧ panel_updates tr = [example_payload].
Proof.
  unfold example_run.
  assert (Hb : posix_basename "/work/app/pom.xml" ∈ supportedFiles).
  { apply includes_spec. vm_compute. reflexivity. }
  assert (Hrun :
    generateRHDAReport (H := posix) example_default_path env_success 7
      pom_uri fresh_world
    = (Val (Fulfilled tt),
       snd (generateRHDAReport (H := posix) example_default_path env_success 7
              pom_uri fresh_world))).
  { vm_compute. reflexivity. }
  split; [reflexivity|]. split; [exact Hb|]. split; [exact Hrun|].
  destruct (successful_run_writes_and_forwards_payload (H := posix)
              example_default_path env_success 7 pom_uri "/work/app/pom.xml"
              fresh_world _ example_payload
              eq_refl ltac:(discriminate) Hb eq_refl Hrun)
    as (p & tr & _ & _ & Hfile & Htr & _ & Hwr & Hpanel & Hupd).
  exists p, tr. rewrite Hpanel in Hupd. split_and!; assumption.
Defined.

(** ** The failure paths (lines 106-124, 150-153) *)

(** C2, as stated, fails: when the user closes the panel while the remote
    call is in flight and the call then rejects, the error is rethrown but
    no panel is left to receive the sentinel. *)
Lemma closed_panel_misses_error_counterexample :
  stackAnalysisService_answer env_rejecting_panel_closed
    (fsPath pom_uri) (build_options plain_config)
  = SvcReturns (Rejected ECONNRESET)
  ∧ fst (example_run env_rejecting_panel_closed pom_uri)
    = Val (Rejected ECONNRESET)
  ∧ panel_updates
      (w_trace (snd (example_run env_rejecting_panel_closed pom_uri)))
    = [].
Proof. split_and!; vm_compute; reflexivity. Qed.

(** C2 (amended): for every error E with which the remote analysis call
    rejects, the promise of [generateRHDAReport] is rejected with that very
    E, the progress narration is analyzing then failure, nothing is
    written, and the panel is updated exactly once, with the literal
    string error, if it is still open after the call; if the user closed
    it during the call, it gets no update. *)
Theorem analysis_rejection_is_rethrown `{PathModule}
    (dflt : string) (env : Env) (ctx : context) (uri : Uri) (s : string)
    (w : World) (E : error) :
  fsPath uri = JStr s →
  s ≠ EmptyString →
  basename s ∈ supportedFiles →
  authorizeRHDA_answer env ctx = Fulfilled tt →
  globalConfig_fault env = None →
  stackAnalysisService_answer env (JStr s) (build_options (globalConfig env))
    = SvcReturns (Rejected E) →
  ∃ w' tr,
    generateRHDAReport dflt env ctx uri w = (Val (Rejected E), w')
    ∧ run_trace w w' tr
    ∧ analysis_calls tr = [(JStr s, build_options (globalConfig env))]
    ∧ progress_reports tr =
        [WIN_ANALYZING_DEPENDENCIES; WIN_FAILURE_DEPENDENCY_ANALYSIS]
    ∧ w_panel w' = negb (panel_closed env DuringAnalysis)
    ∧ panel_updates tr = (if w_panel w' then ["error"] else [])
    ∧ write_calls tr = [].
Proof.
  intros Hp Hs Hb Ha Hc Hsvc.
  apply truthy_JStr in Hs. apply includes_spec in Hb.
  destruct uri as [v]; cbn in Hp; subst v.
  wf_unfold; wf_simpl. rewrite Hs; wf_simpl. rewrite Hb, Ha, Hc; wf_simpl.
  rewrite Hsvc; wf_simpl.
  repeat wf_case; wf_result; done.
Qed.

Lemma analysis_rejection_witness :
  fsPath pom_uri = JStr "/work/app/pom.xml"
  ∧ (posix_basename "/work/app/pom.xml" ∈ supportedFiles)
  ∧ stackAnalysisService_answer env_rejecting (JStr "/work/app/pom.xml")
      (build_options (globalConfig env_rejecting))
    = SvcReturns (Rejected ECONNRESET)
  ∧ ∃ w' tr,
      example_run env_rejecting pom_uri = (Val (Rejected ECONNRESET), w')
      ∧ run_trace fresh_world w' tr
      ∧ panel_updates tr = ["error"].
Proof.
  unfold example_run.
  assert (Hb : posix_basename "/work/app/pom.xml" ∈ supportedFiles).
  { apply includes_spec. vm_compute. reflexivity. }
  split; [reflexivity|]. split; [exact Hb|]. split; [reflexivity|].
  destruct (analysis_rejection_is_rethrown (H := posix)
              example_default_path env_rejecting 7 pom_uri "/work/app/pom.xml"
              fresh_world ECONNRESET eq_refl ltac:(discriminate) Hb
              eq_refl eq_refl eq_refl)
    as (w' & tr & Hrun & Htr & _ & _ & Hpanel & Hupd & _).
  exists w', tr. rewrite Hpanel in Hupd. split_and!; assumption.
Defined.

(** C8, as stated, fails in one point: when the user closes the panel
    while the report is being written and the write then fails, the run
    is rejected with the write error but no panel is left to receive the
    sentinel, so the run has no panel update at all. *)
Lemma closed_panel_misses_write_error_counterexample :
  stackAnalysisService_answer env_write_fails_panel_closed
    (fsPath pom_uri) (build_options plain_config)
  = SvcReturns (Fulfilled example_payload)
  ∧ fst (writeReportToFile (H := posix) example_default_path
           env_write_fails_panel_closed example_payload fresh_world)
    = Val (Rejected EACCES)
  ∧ fst (example_run env_write_fails_panel_closed pom_uri)
    = Val (Rejected EACCES)
  ∧ panel_updates
      (w_trace (snd (example_run env_write_fails_panel_closed pom_uri)))
    = [].
Proof. split_and!; vm_compute; reflexivity. Qed.

(** C8 (amended): when the remote analysis call has succeeded with payload
    R, no panel update is made before the report is written; and if that
    write rejects with E, the success-path update never runs: the
    narration stops at failure, the panel receives no update other than
    the error sentinel (exactly that one if the panel is still open, and
    it is when the user never closes it; none if it was closed), no file
    other than the report is changed, and the workflow's promise is
    rejected with the write error E itself. *)
Theorem write_failure_never_forwards_payload `{PathModule}
    (dflt : string) (env : Env) (ctx : context) (uri : Uri) (s : string)
    (w : World) (R : string) :
  fsPath uri = JStr s →
  s ≠ EmptyString →
  basename s ∈ supportedFiles →
  authorizeRHDA_answer env ctx = Fulfilled tt →
  globalConfig_fault env = None →
  stackAnalysisService_answer env (JStr s) (build_options (globalConfig env))
    = SvcReturns (Fulfilled R) →
  ∃ pr w' tr,
    generateRHDAReport dflt env ctx uri w = (Val pr, w')
    ∧ run_trace w w' tr
    ∧ write_precedes_updates tr
    ∧ (∀ E, fst (writeReportToFile dflt env R w) = Val (Rejected E) →
         pr = Rejected E
         ∧ progress_reports tr =
             [WIN_ANALYZING_DEPENDENCIES; WIN_GENERATING_DEPENDENCIES;
              WIN_FAILURE_DEPENDENCY_ANALYSIS]
         ∧ panel_updates tr = (if w_panel w' then ["error"] else [])
         ∧ ((∀ point, panel_closed env point = false) → w_panel w' = true)
         ∧ (∀ q, reportFilePath dflt (globalConfig env) ≠ JStr q →
              w_files w' !! q = w_files w !! q)).
Proof.
  intros Hp Hs Hb Ha Hc Hsvc.
  apply truthy_JStr in Hs. apply includes_spec in Hb.
  destruct uri as [v]; cbn in Hp; subst v.
  wf_unfold; wf_simpl. rewrite Hs; wf_simpl. rewrite Hb, Ha, Hc; wf_simpl.
  rewrite Hsvc; wf_simpl.
  repeat wf_case.
  all: do 3 eexists; split; [reflexivity|]; split; [wf_trace|]; wf_simpl.
  all: split; [by apply written_first_sound|].
  all: intros E Hw; try discriminate Hw; injection Hw as <-.
  all: split_and!; try done.
  all: try (intros q Hq; apply after_failed_write_other; congruence).
  all: intros Hopen; rewrite ?Hopen in *; done.
Qed.

Lemma write_failure_witness :
  fsPath pom_uri = JStr "/work/app/pom.xml"
  ∧ (posix_basename "/work/app/pom.xml" ∈ supportedFiles)
  ∧ fst (writeReportToFile (H := posix) example_default_path env_write_fails
           example_payload fresh_world) = Val (Rejected EACCES)
  ∧ ∃ w' tr,
      example_run env_write_fails pom_uri = (Val (Rejected EACCES), w')
      ∧ run_trace fresh_world w' tr
      ∧ panel_updates tr = ["error"].
Proof.
  unfold example_run.
  assert (Hb : posix_basename "/work/app/pom.xml" ∈ supportedFiles).
  { apply includes_spec. vm_compute. reflexivity. }
  assert (Hw : fst (writeReportToFile (H := posix) example_default_path
                      env_write_fails example_payload fresh_world)
               = Val (Rejected EACCES)).
  { vm_compute. reflexivity. }
  split; [reflexivity|]. split; [exact Hb|]. split; [exact Hw|].
  destruct (write_failure_never_forwards_payload (H := posix)
              example_default_path env_write_fails 7 pom_uri
              "/work/app/pom.xml" fresh_world example_payload
              eq_refl ltac:(discriminate) Hb eq_refl eq_refl eq_refl)
    as (pr & w' & tr & Hrun & Htr & _ & Hfail).
  destruct (Hfail EACCES Hw) as (-> & _ & Hupd & Hopen & _).
  exists w', tr. rewrite Hopen in Hupd by reflexivity.
  split_and!; assumption.
Defined.

(** C10: if an error E is thrown synchronously inside the progress scope
    before the remote call returns its promise (while the option bag is set
    up, or by the call itself), the narration reports the analyzing message
    a second time and never the failure message, nothing reaches the disk
    or the panel, and the promise of [executeStackAnalysis] is rejected
    with E. *)
Theorem synchronous_throw_reports_analyzing_again `{PathModule}
    (dflt : string) (env : Env) (manifest : jsval) (w : World) (E : error) :
  globalConfig_fault env = Some E
  ∨ (globalConfig_fault env = None
     ∧ stackAnalysisService_answer env manifest
         (build_options (globalConfig env)) = SvcThrows E) →
  ∃ w' tr,
    executeStackAnalysis dflt env manifest w = (Val (Rejected E), w')
    ∧ run_trace w w' tr
    ∧ progress_reports tr =
        [WIN_ANALYZING_DEPENDENCIES; WIN_ANALYZING_DEPENDENCIES]
    ∧ panel_updates tr = []
    ∧ write_calls tr = []
    ∧ w_files w' = w_files w.
Proof.
  intros [Hc | [Hc Hsvc]]; wf_unfold; wf_simpl; rewrite Hc; wf_simpl;
    rewrite ?Hsvc; wf_simpl; wf_result; done.
Qed.

Lemma synchronous_throw_witness :
  (globalConfig_fault env_config_throws = Some config_unavailable
   ∨ (globalConfig_fault env_config_throws = None
      ∧ stackAnalysisService_answer env_config_throws
          (JStr "/work/app/pom.xml")
          (build_options (globalConfig env_config_throws))
        = SvcThrows config_unavailable))
  ∧ ∃ w' tr,
      executeStackAnalysis (H := posix) example_default_path
        env_config_throws (JStr "/work/app/pom.xml") fresh_world
      = (Val (Rejected config_unavailable), w')
      ∧ run_trace fresh_world w' tr
      ∧ progress_reports tr =
          [WIN_ANALYZING_DEPENDENCIES; WIN_ANALYZING_DEPENDENCIES].
Proof.
  split; [left; reflexivity|].
  destruct (synchronous_throw_reports_analyzing_again (H := posix)
              example_default_path env_config_throws
              (JStr "/work/app/pom.xml") fresh_world config_unavailable
              (or_introl eq_refl))
    as (w' & tr & Hrun & Htr & Hrep & _).
  exists w', tr. split_and!; assumption.
Defined.

(** ** Writing the report (lines 34-51) *)

(** C7: for every payload and configuration with a readable report path,
    [writeReportToFile] writes to the configured path when it is set and
    to the built-in default path otherwise.  If the directory of that path
    does not exist, it is created recursively, it and each of its parents
    exist afterwards, and the write goes ahead and succeeds; if the
    directory exists, no creation is attempted and the write goes ahead all
    the same.  When the write fails, the promise is rejected with the
    error of the file system (as it is with the error of a failing
    directory creation); the report file is left as the failed write left
    it, and no other file is changed. *)
Theorem report_is_written_to_configured_path `{PathModule}
    (dflt : string) (env : Env) (data : string) (w : World) (p : string) :
  globalConfig_fault env = None →
  reportFilePath dflt (globalConfig env) = JStr p →
  ∃ pr w' tr,
    writeReportToFile dflt env data w = (Val pr, w')
    ∧ run_trace w w' tr
    ∧ (truthy (rhdaReportFilePath (globalConfig env)) = false → p = dflt)
    ∧ (truthy (rhdaReportFilePath (globalConfig env)) = true →
       rhdaReportFilePath (globalConfig env) = JStr p)
    ∧ (exists_on_disk (w_dirs w) (w_files w) (dirname p) = false →
       mkdir_calls tr = [dirname p]
       ∧ (∀ e, mkdirSync_fault env = Some e →
            pr = Rejected e ∧ write_calls tr = [])
       ∧ (mkdirSync_fault env = None →
          (∀ k, (k ≤ String.length (dirname p))%nat →
                Nat.iter k dirname (dirname p) ∈ w_dirs w')
          ∧ write_calls tr = [(p, data)]
          ∧ (writeFile_fault env = None →
             pr = Fulfilled tt ∧ w_files w' = <[p := data]> (w_files w))))
    ∧ (exists_on_disk (w_dirs w) (w_files w) (dirname p) = true →
       mkdir_calls tr = []
       ∧ w_dirs w' = w_dirs w
       ∧ write_calls tr = [(p, data)]
       ∧ (writeFile_fault env = None →
          pr = Fulfilled tt ∧ w_files w' = <[p := data]> (w_files w)))
    ∧ (∀ e, writeFile_fault env = Some e →
       write_calls tr = [(p, data)] →
       pr = Rejected e
       ∧ w_files w'
         = after_failed_write (writeFile_partial env) p data (w_files w)
       ∧ (∀ q, q ≠ p → w_files w' !! q = w_files w !! q)).
Proof.
  intros Hc Hp.
  assert (Hdest : (truthy (rhdaReportFilePath (globalConfig env)) = false →
                   p = dflt)
                  ∧ (truthy (rhdaReportFilePath (globalConfig env)) = true →
                     rhdaReportFilePath (globalConfig env) = JStr p)).
  { unfold reportFilePath, js_or in Hp.
    destruct (truthy (rhdaReportFilePath (globalConfig env)));
      split; intros; try done; congruence. }
  destruct Hdest as [Hd1 Hd2].
  wf_unfold; wf_simpl. rewrite Hc; wf_simpl. rewrite Hp; wf_simpl.
  repeat wf_case.
  all: do 3 eexists; split; [reflexivity|].
  all: split; [wf_trace|].
  all: wf_simpl.
  all: repeat first [progress intros | progress split_and? | progress simplify_eq].
  all: try done; try (by auto); try (by apply after_failed_write_other).
  all: apply elem_of_union_r, elem_of_list_to_set;
       by apply iter_dirname_in_ancestors.
Qed.

Lemma report_written_witness :
  globalConfig_fault env_success = None
  ∧ reportFilePath example_default_path (globalConfig env_success)
    = JStr "/home/dev/reports/rhda/report.html"
  ∧ ∃ w',
      writeReportToFile (H := posix) example_default_path env_success
        example_payload fresh_world = (Val (Fulfilled tt), w')
      ∧ "/home/dev/reports/rhda" ∈ w_dirs w'
      ∧ "/home/dev/reports" ∈ w_dirs w'
      ∧ "/home/dev" ∈ w_dirs w'
      ∧ w_files w' !! "/home/dev/reports/rhda/report.html"
        = Some example_payload.
Proof.
  split; [reflexivity|]. split; [reflexivity|].
  destruct (report_is_written_to_configured_path (H := posix)
              example_default_path env_success example_payload fresh_world
              "/home/dev/reports/rhda/report.html" eq_refl eq_refl)
    as (pr & w' & tr & Hrun & _ & _ & _ & Hmissing & _).
  assert (Hno : exists_on_disk (w_dirs fresh_world) (w_files fresh_world)
                  (posix_dirname "/home/dev/reports/rhda/report.html")
                = false).
  { vm_compute. reflexivity. }
  destruct (Hmissing Hno) as (_ & _ & Hmade).
  destruct (Hmade eq_refl) as (Hdirs & _ & Hwritten).
  destruct (Hwritten eq_refl) as [-> Hfiles].
  exists w'. split; [exact Hrun|].
  split; [apply (Hdirs 0); vm_compute; lia|].
  split; [apply (Hdirs 1); vm_compute; lia|].
  split; [apply (Hdirs 2); vm_compute; lia|].
  rewrite Hfiles. apply lookup_insert_eq.
Defined.

(** * Further properties of the workflow *)

(** Decide the guard of [generateRHDAReport] before the run is split on
    the answers of the environment. *)
Ltac wf_guard :=
  cbn [truthy] in *;
  repeat match goal with
  | |- context [negb (String.eqb ?s EmptyString)] =>
      destruct (negb (String.eqb s EmptyString)) eqn:?; wf_simpl
  | |- context [includes supportedFiles ?n] =>
      destruct (includes supportedFiles n) eqn:?; wf_simpl
  end.


(** The events of a computed run, which may have added none. *)
Ltac wf_events :=
  first [wf_trace | unfold run_trace; wf_simpl; symmetry; apply app_nil_r].

(** Name the promise, the final world and the events of a computed run. *)
Ltac wf_outcome :=
  do 3 eexists; split; [reflexivity|]; split; [wf_events|]; wf_simpl.

(** ** Authorization (lines 132-135, 145-153) *)

(** X1: when the authorization is rejected with E on a supported manifest,
    the promise of [generateRHDAReport] is rejected with that E; no panel
    is opened, no progress is reported, the analysis service is not called
    and the disk is untouched.  The error sentinel still goes to a panel
    left open by an earlier run, because the authorization sits inside
    the same try block. *)
Theorem authorization_rejection_stops_the_run `{PathModule}
    (dflt : string) (env : Env) (ctx : context) (uri : Uri) (s : string)
    (w : World) (E : error) :
  fsPath uri = JStr s →
  s ≠ EmptyString →
  basename s ∈ supportedFiles →
  authorizeRHDA_answer env ctx = Rejected E →
  ∃ w' tr,
    generateRHDAReport dflt env ctx uri w = (Val (Rejected E), w')
    ∧ run_trace w w' tr
    ∧ panel_openings tr = 0
    ∧ progress_reports tr = []
    ∧ analysis_calls tr = []
    ∧ write_calls tr = []
    ∧ w_panel w' = w_panel w && negb (panel_closed env DuringAuthorization)
    ∧ panel_updates tr = (if w_panel w' then ["error"] else [])
    ∧ w_dirs w' = w_dirs w
    ∧ w_files w' = w_files w.
Proof.
  intros Hp Hs Hb Ha.
  apply truthy_JStr in Hs. apply includes_spec in Hb.
  destruct uri as [v]; cbn in Hp; subst v.
  wf_unfold; wf_simpl. rewrite Hs; wf_simpl. rewrite Hb, Ha; wf_simpl.
  repeat wf_case; wf_result; done.
Qed.

Lemma authorization_rejection_witness :
  fsPath pom_uri = JStr "/work/app/pom.xml"
  ∧ (posix_basename "/work/app/pom.xml" ∈ supportedFiles)
  ∧ authorizeRHDA_answer env_unauthorized 7 = Rejected EAUTH
  ∧ ∃ w' tr,
      generateRHDAReport (H := posix) example_default_path env_unauthorized 7
        pom_uri world_with_panel = (Val (Rejected EAUTH), w')
      ∧ run_trace world_with_panel w' tr
      ∧ analysis_calls tr = []
      ∧ panel_updates tr = ["error"].
Proof.
  assert (Hb : posix_basename "/work/app/pom.xml" ∈ supportedFiles).
  { apply includes_spec. vm_compute. reflexivity. }
  split; [reflexivity|]. split; [exact Hb|]. split; [reflexivity|].
  destruct (authorization_rejection_stops_the_run (H := posix)
              example_default_path env_unauthorized 7 pom_uri
              "/work/app/pom.xml" world_with_panel EAUTH
              eq_refl ltac:(discriminate) Hb eq_refl)
    as (w' & tr & Hrun & Htr & _ & _ & Hcalls & _ & Hpanel & Hupd & _).
  exists w', tr. rewrite Hpanel in Hupd. split_and!; assumption.
Defined.

(** ** Settling (lines 58-125, 143-159) *)

(** X2: the workflow loses no promise: whenever the authorization settles
    and the analysis service never hands back a promise that stays
    pending, the promise of [generateRHDAReport] settles too, for every
    URI, configuration and file-system answer. *)
Theorem workflow_settles_when_collaborators_do `{PathModule}
    (dflt : string) (env : Env) (ctx : context) (uri : Uri) (w : World) :
  authorizeRHDA_answer env ctx ≠ Pending →
  (∀ m o, stackAnalysisService_answer env m o ≠ SvcReturns Pending) →
  ∃ pr w',
    generateRHDAReport dflt env ctx uri w = (Val pr, w') ∧ pr ≠ Pending.
Proof.
  intros Ha Hsvc. destruct uri as [[| |[]|s]].
  all: wf_unfold; wf_simpl; wf_guard.
  all: repeat wf_case.
  all: try (by do 2 eexists; split; [reflexivity|]).
  all: try congruence.
  all: exfalso; eapply Hsvc; eassumption.
Qed.

Lemma workflow_settles_witness :
  authorizeRHDA_answer env_rejecting 7 ≠ Pending
  ∧ (∀ m o, stackAnalysisService_answer env_rejecting m o ≠ SvcReturns Pending)
  ∧ ∃ pr w',
      generateRHDAReport (H := posix) example_default_path env_rejecting 7
        pom_uri fresh_world = (Val pr, w')
      ∧ pr ≠ Pending.
Proof.
  assert (Ha : authorizeRHDA_answer env_rejecting 7 ≠ Pending).
  { cbn. discriminate. }
  assert (Hsvc : ∀ m o,
             stackAnalysisService_answer env_rejecting m o
             ≠ SvcReturns Pending).
  { intros m o. cbn. discriminate. }
  split; [exact Ha|]. split; [exact Hsvc|].
  exact (workflow_settles_when_collaborators_do (H := posix)
           example_default_path env_rejecting 7 pom_uri fresh_world Ha Hsvc).
Defined.

(** X3: no time-out guards the remote call: if the analysis service
    never answers, the promise of [generateRHDAReport] stays pending, the
    narration stops at the analyzing message, the panel has been opened
    but gets no update, and nothing is written. *)
Theorem unanswered_analysis_leaves_workflow_pending `{PathModule}
    (dflt : string) (env : Env) (ctx : context) (uri : Uri) (s : string)
    (w : World) :
  fsPath uri = JStr s →
  s ≠ EmptyString →
  basename s ∈ supportedFiles →
  authorizeRHDA_answer env ctx = Fulfilled tt →
  globalConfig_fault env = None →
  stackAnalysisService_answer env (JStr s) (build_options (globalConfig env))
    = SvcReturns Pending →
  ∃ w' tr,
    generateRHDAReport dflt env ctx uri w = (Val Pending, w')
    ∧ run_trace w w' tr
    ∧ progress_reports tr = [WIN_ANALYZING_DEPENDENCIES]
    ∧ panel_openings tr = 1
    ∧ panel_updates tr = []
    ∧ write_calls tr = []
    ∧ w_dirs w' = w_dirs w
    ∧ w_files w' = w_files w.
Proof.
  intros Hp Hs Hb Ha Hc Hsvc.
  apply truthy_JStr in Hs. apply includes_spec in Hb.
  destruct uri as [v]; cbn in Hp; subst v.
  wf_unfold; wf_simpl. rewrite Hs; wf_simpl. rewrite Hb, Ha, Hc; wf_simpl.
  rewrite Hsvc; wf_simpl. wf_result. done.
Qed.

Lemma unanswered_analysis_witness :
  fsPath pom_uri = JStr "/work/app/pom.xml"
  ∧ (posix_basename "/work/app/pom.xml" ∈ supportedFiles)
  ∧ stackAnalysisService_answer env_silent (JStr "/work/app/pom.xml")
      (build_options (globalConfig env_silent)) = SvcReturns Pending
  ∧ ∃ w' tr,
      generateRHDAReport (H := posix) example_default_path env_silent 7
        pom_uri fresh_world = (Val Pending, w')
      ∧ run_trace fresh_world w' tr
      ∧ progress_reports tr = [WIN_ANALYZING_DEPENDENCIES]
      ∧ write_calls tr = [].
Proof.
  assert (Hb : posix_basename "/work/app/pom.xml" ∈ supportedFiles).
  { apply includes_spec. vm_compute. reflexivity. }
  split; [reflexivity|]. split; [exact Hb|]. split; [reflexivity|].
  destruct (unanswered_analysis_leaves_workflow_pending (H := posix)
              example_default_path env_silent 7 pom_uri "/work/app/pom.xml"
              fresh_world eq_refl ltac:(discriminate) Hb
              eq_refl eq_refl eq_refl)
    as (w' & tr & Hrun & Htr & Hrep & _ & _ & Hwr & _).
  exists w', tr. split_and!; assumption.
Defined.

(** ** Progress narration (lines 60-121) *)

(** X4: the progress narration of [executeStackAnalysis] and the state of
    its promise determine each other: analyzing, generating, success
    exactly when it is fulfilled; analyzing alone exactly when it stays
    pending; and one of the three narrations that end in a repeated
    analyzing or in failure exactly when it is rejected. *)
Theorem narration_tells_the_outcome `{PathModule}
    (dflt : string) (env : Env) (manifest : jsval) (w : World) :
  ∃ pr w' tr,
    executeStackAnalysis dflt env manifest w = (Val pr, w')
    ∧ run_trace w w' tr
    ∧ (pr = Fulfilled tt
       ↔ progress_reports tr =
           [WIN_ANALYZING_DEPENDENCIES; WIN_GENERATING_DEPENDENCIES;
            WIN_SUCCESS_DEPENDENCY_ANALYSIS])
    ∧ (pr = Pending ↔ progress_reports tr = [WIN_ANALYZING_DEPENDENCIES])
    ∧ ((∃ E, pr = Rejected E)
       ↔ progress_reports tr =
           [WIN_ANALYZING_DEPENDENCIES; WIN_ANALYZING_DEPENDENCIES]
         ∨ progress_reports tr =
           [WIN_ANALYZING_DEPENDENCIES; WIN_FAILURE_DEPENDENCY_ANALYSIS]
         ∨ progress_reports tr =
           [WIN_ANALYZING_DEPENDENCIES; WIN_GENERATING_DEPENDENCIES;
            WIN_FAILURE_DEPENDENCY_ANALYSIS]).
Proof.
  wf_unfold; wf_simpl. repeat wf_case.
  all: wf_outcome.
  all: split_and!; split; try (by intros [? ?]); try (by intros [|[|]]);
    try done; eauto.
Qed.

(** ** Panel updates (lines 23-27, 98, 151) *)

(** X5: in every run the panel receives at most one update: none while
    the promise is pending, nothing but the error sentinel when it is
    rejected, and nothing but the payload the service resolved with when it
    is fulfilled. *)
Theorem panel_gets_at_most_one_update `{PathModule}
    (dflt : string) (env : Env) (ctx : context) (uri : Uri) (w : World) :
  ∃ pr w' tr,
    generateRHDAReport dflt env ctx uri w = (Val pr, w')
    ∧ run_trace w w' tr
    ∧ (length (panel_updates tr) ≤ 1)%nat
    ∧ (pr = Pending → panel_updates tr = [])
    ∧ (∀ E, pr = Rejected E →
         panel_updates tr = [] ∨ panel_updates tr = ["error"])
    ∧ (pr = Fulfilled tt →
         panel_updates tr = []
         ∨ ∃ R, stackAnalysisService_answer env (fsPath uri)
                  (build_options (globalConfig env))
                = SvcReturns (Fulfilled R)
                ∧ panel_updates tr = [R]).
Proof.
  destruct uri as [[| |[]|s]].
  all: wf_unfold; wf_simpl; wf_guard.
  all: repeat wf_case.
  all: wf_outcome.
  all: split_and!; try (cbn; lia); try done; eauto.
Qed.

(** ** What a run does to the disk (lines 34-51) *)

(** X6: a run leaves every file other than the report file as it was,
    never removes a directory, creates directories only through a mkdir
    call, and changes no file at all unless it has called writeFile. *)
Theorem run_touches_only_the_report `{PathModule}
    (dflt : string) (env : Env) (ctx : context) (uri : Uri) (w : World) :
  ∃ pr w' tr,
    generateRHDAReport dflt env ctx uri w = (Val pr, w')
    ∧ run_trace w w' tr
    ∧ w_dirs w ⊆ w_dirs w'
    ∧ (mkdir_calls tr = [] → w_dirs w' = w_dirs w)
    ∧ (∀ q, reportFilePath dflt (globalConfig env) ≠ JStr q →
         w_files w' !! q = w_files w !! q)
    ∧ (write_calls tr = [] → w_files w' = w_files w).
Proof.
  destruct uri as [[| |[]|s]].
  all: wf_unfold; wf_simpl; wf_guard.
  all: repeat wf_case.
  all: wf_outcome.
  all: split_and!; try done; try set_solver.
  all: intros q Hq;
    first [apply lookup_insert_ne | apply after_failed_write_other];
    congruence.
Qed.

(** X7: [writeReportToFile] always settles and never changes a file
    other than the report file.  When its promise is fulfilled the report
    file holds the data; when it is rejected the files are as before, or
    the write itself failed after opening the file and the report file
    holds the first characters of the data that reached it.  An error
    thrown while the configuration is read becomes the rejection. *)
Theorem write_settles_and_spares_other_files `{PathModule}
    (dflt : string) (env : Env) (data : string) (w : World) :
  ∃ pr w',
    writeReportToFile dflt env data w = (Val pr, w')
    ∧ pr ≠ Pending
    ∧ (∀ q, reportFilePath dflt (globalConfig env) ≠ JStr q →
         w_files w' !! q = w_files w !! q)
    ∧ (pr = Fulfilled tt →
       ∃ p, reportFilePath dflt (globalConfig env) = JStr p
            ∧ w_files w' = <[p := data]> (w_files w))
    ∧ (∀ E, pr = Rejected E →
         w_files w' = w_files w
         ∨ ∃ p n, reportFilePath dflt (globalConfig env) = JStr p
                  ∧ writeFile_fault env = Some E
                  ∧ writeFile_partial env = Some n
                  ∧ w_files w' = <[p := String.substring 0 n data]> (w_files w))
    ∧ (∀ E, globalConfig_fault env = Some E →
         pr = Rejected E ∧ w_files w' = w_files w).
Proof.
  wf_unfold; wf_simpl. repeat wf_case.
  all: destruct (writeFile_partial env) eqn:Hpartial; cbn [after_failed_write].
  all: do 2 eexists; split; [reflexivity|]; wf_simpl.
  all: split_and!; try done; eauto.
  all: try (intros q Hq; apply lookup_insert_ne; congruence).
  all: try (by intros ? [= <-]).
  all: intros E [= <-]; right; eauto 10.
Qed.

Lemma exists_on_disk_after_mkdir `{PathModule}
    (dirs : gset string) (files : gmap string string) (q : string) (n : nat) :
  exists_on_disk (dirs ∪ list_to_set (ancestors n q)) files q = true.
Proof.
  unfold exists_on_disk. apply orb_true_iff. left.
  apply bool_decide_eq_true, elem_of_union_r, elem_of_list_to_set.
  destruct n; cbn; by left.
Qed.

Lemma exists_on_disk_insert
    (dirs : gset string) (files : gmap string string) (p x q : string) :
  exists_on_disk dirs files q = true →
  exists_on_disk dirs (<[p := x]> files) q = true.
Proof.
  unfold exists_on_disk. rewrite !orb_true_iff, !bool_decide_eq_true.
  intros [Hd | Hf]; [by left | right].
  apply lookup_insert_is_Some. destruct (decide (p = q)); [by left|by right].
Qed.

(** X8: after one fulfilled [writeReportToFile], a second one finds the
    directory and calls no mkdir, leaves the directories as they are, is
    fulfilled as well, and the report file holds the second data only. *)
Theorem second_write_finds_the_directory `{PathModule}
    (dflt : string) (env : Env) (first second : string) (w w1 : World) :
  writeReportToFile dflt env first w = (Val (Fulfilled tt), w1) →
  ∃ p w2 tr,
    reportFilePath dflt (globalConfig env) = JStr p
    ∧ writeReportToFile dflt env second w1 = (Val (Fulfilled tt), w2)
    ∧ run_trace w1 w2 tr
    ∧ mkdir_calls tr = []
    ∧ w_dirs w2 = w_dirs w1
    ∧ w_files w2 = <[p := second]> (w_files w).
Proof.
  match goal with |- _ → ?G => set (concl := G) end.
  wf_unfold; wf_simpl. repeat wf_case; intros Hrun; try discriminate Hrun.
  all: injection Hrun as <-; subst concl.
  all: wf_unfold; wf_simpl.
  all: repeat match goal with
         | Heq : ?x = _ |- context [?x] => rewrite Heq; wf_simpl
         end.
  all: rewrite ?exists_on_disk_after_mkdir; wf_simpl.
  all: try (rewrite exists_on_disk_insert by assumption; wf_simpl).
  all: try (rewrite exists_on_disk_insert
              by apply exists_on_disk_after_mkdir; wf_simpl).
  all: do 3 eexists; split; [reflexivity|]; split; [reflexivity|].
  all: split; [wf_trace|]; wf_simpl.
  all: split_and!; try done; by rewrite insert_insert_eq.
Qed.

Lemma second_write_witness :
  writeReportToFile (H := posix) example_default_path env_success
    example_payload fresh_world
  = (Val (Fulfilled tt),
     snd (writeReportToFile (H := posix) example_default_path env_success
            example_payload fresh_world))
  ∧ ∃ w2 tr,
      writeReportToFile (H := posix) example_default_path env_success
        second_payload
        (snd (writeReportToFile (H := posix) example_default_path env_success
                example_payload fresh_world))
      = (Val (Fulfilled tt), w2)
      ∧ mkdir_calls tr = []
      ∧ w_files w2 !! "/home/dev/reports/rhda/report.html"
        = Some second_payload.
Proof.
  assert (Hfirst :
    writeReportToFile (H := posix) example_default_path env_success
      example_payload fresh_world
    = (Val (Fulfilled tt),
       snd (writeReportToFile (H := posix) example_default_path env_success
              example_payload fresh_world))).
  { vm_compute. reflexivity. }
  split; [exact Hfirst|].
  destruct (second_write_finds_the_directory (H := posix)
              example_default_path env_success example_payload second_payload
              fresh_world _ Hfirst)
    as (p & w2 & tr & Hp & Hsecond & _ & Hmk & _ & Hfiles).
  exists w2, tr. split; [exact Hsecond|]. split; [exact Hmk|].
  injection Hp as <-. rewrite Hfiles. apply lookup_insert_eq.
Defined.

(** ** Fulfilled runs (lines 91-105) *)

(** What a fulfilled run on a supported manifest tells about the
    collaborators and the disk. *)
Lemma fulfilled_run_inversion `{PathModule}
    (dflt : string) (env : Env) (ctx : context) (s : string)
    (w w' : World) :
  s ≠ EmptyString →
  basename s ∈ supportedFiles →
  generateRHDAReport dflt env ctx {| fsPath := JStr s |} w
    = (Val (Fulfilled tt), w') →
  ∃ R p,
    stackAnalysisService_answer env (JStr s) (build_options (globalConfig env))
      = SvcReturns (Fulfilled R)
    ∧ reportFilePath dflt (globalConfig env) = JStr p
    ∧ w_files w' = <[p := R]> (w_files w).
Proof.
  intros Hs Hb.
  apply truthy_JStr in Hs. apply includes_spec in Hb.
  match goal with |- _ → ?G => set (concl := G) end.
  wf_unfold; wf_simpl. rewrite Hs; wf_simpl. rewrite Hb; wf_simpl.
  repeat wf_case; intros Hrun; try discriminate Hrun.
  all: injection Hrun as <-; subst concl; wf_simpl.
  all: do 2 eexists; split_and!; reflexivity.
Qed.

(** X9: two fulfilled runs in a row on the same manifest and report path
    leave the report file with the payload of the second run, every other
    file being as before the first run. *)
Theorem second_run_overwrites_the_report `{PathModule}
    (dflt : string) (env1 env2 : Env) (ctx1 ctx2 : context) (uri : Uri)
    (s : string) (w w1 w2 : World) (R2 : string) :
  fsPath uri = JStr s →
  s ≠ EmptyString →
  basename s ∈ supportedFiles →
  reportFilePath dflt (globalConfig env1)
    = reportFilePath dflt (globalConfig env2) →
  stackAnalysisService_answer env2 (JStr s)
    (build_options (globalConfig env2)) = SvcReturns (Fulfilled R2) →
  generateRHDAReport dflt env1 ctx1 uri w = (Val (Fulfilled tt), w1) →
  generateRHDAReport dflt env2 ctx2 uri w1 = (Val (Fulfilled tt), w2) →
  ∃ p,
    reportFilePath dflt (globalConfig env2) = JStr p
    ∧ w_files w2 = <[p := R2]> (w_files w)
    ∧ w_files w2 !! p = Some R2.
Proof.
  intros Hp Hs Hb Hsame Hsvc Hrun1 Hrun2.
  destruct uri as [v]; cbn in Hp; subst v.
  destruct (fulfilled_run_inversion dflt env1 ctx1 s w w1 Hs Hb Hrun1)
    as (R1 & p1 & _ & Hp1 & Hfiles1).
  destruct (fulfilled_run_inversion dflt env2 ctx2 s w1 w2 Hs Hb Hrun2)
    as (R & p2 & Hsvc2 & Hp2 & Hfiles2).
  rewrite Hsvc in Hsvc2. injection Hsvc2 as <-.
  rewrite Hsame, Hp2 in Hp1. injection Hp1 as ->.
  exists p1. split; [exact Hp2|].
  rewrite Hfiles2, Hfiles1, insert_insert_eq.
  split; [reflexivity | apply lookup_insert_eq].
Qed.

Lemma second_run_witness :
  generateRHDAReport (H := posix) example_default_path env_success 7 pom_uri
    fresh_world
  = (Val (Fulfilled tt), snd (example_run env_success pom_uri))
  ∧ generateRHDAReport (H := posix) example_default_path env_second_success 8
      pom_uri (snd (example_run env_success pom_uri))
    = (Val (Fulfilled tt),
       snd (generateRHDAReport (H := posix) example_default_path
              env_second_success 8 pom_uri
              (snd (example_run env_success pom_uri))))
  ∧ w_files
      (snd (generateRHDAReport (H := posix) example_default_path
              env_second_success 8 pom_uri
              (snd (example_run env_success pom_uri))))
      !! "/home/dev/reports/rhda/report.html" = Some second_payload.
Proof.
  assert (Hb : posix_basename "/work/app/pom.xml" ∈ supportedFiles).
  { apply includes_spec. vm_compute. reflexivity. }
  assert (Hrun1 :
    generateRHDAReport (H := posix) example_default_path env_success 7 pom_uri
      fresh_world
    = (Val (Fulfilled tt), snd (example_run env_success pom_uri))).
  { vm_compute. reflexivity. }
  assert (Hrun2 :
    generateRHDAReport (H := posix) example_default_path env_second_success 8
      pom_uri (snd (example_run env_success pom_uri))
    = (Val (Fulfilled tt),
       snd (generateRHDAReport (H := posix) example_default_path
              env_second_success 8 pom_uri
              (snd (example_run env_success pom_uri))))).
  { vm_compute. reflexivity. }
  split; [exact Hrun1|]. split; [exact Hrun2|].
  destruct (second_run_overwrites_the_report (H := posix)
              example_default_path env_success env_second_success 7 8 pom_uri
              "/work/app/pom.xml" fresh_world _ _ second_payload
              eq_refl ltac:(discriminate) Hb eq_refl eq_refl Hrun1 Hrun2)
    as (p & Hp & _ & Hfile).
  injection Hp as <-. exact Hfile.
Defined.

(** X10: a fulfilled promise of [generateRHDAReport] on a supported
    manifest is never an empty success: the authorization was fulfilled,
    the service resolved with some payload R, the write did not fail, the
    report file holds R, written once, and the narration ran from
    analyzing through generating to success. *)
Theorem fulfilled_run_has_written_the_report `{PathModule}
    (dflt : string) (env : Env) (ctx : context) (uri : Uri) (s : string)
    (w w' : World) :
  fsPath uri = JStr s →
  s ≠ EmptyString →
  basename s ∈ supportedFiles →
  generateRHDAReport dflt env ctx uri w = (Val (Fulfilled tt), w') →
  ∃ R p tr,
    authorizeRHDA_answer env ctx = Fulfilled tt
    ∧ stackAnalysisService_answer env (JStr s)
        (build_options (globalConfig env)) = SvcReturns (Fulfilled R)
    ∧ reportFilePath dflt (globalConfig env) = JStr p
    ∧ writeFile_fault env = None
    ∧ w_files w' !! p = Some R
    ∧ run_trace w w' tr
    ∧ write_calls tr = [(p, R)]
    ∧ progress_reports tr =
        [WIN_ANALYZING_DEPENDENCIES; WIN_GENERATING_DEPENDENCIES;
         WIN_SUCCESS_DEPENDENCY_ANALYSIS].
Proof.
  intros Hp Hs Hb.
  apply truthy_JStr in Hs. apply includes_spec in Hb.
  destruct uri as [v]; cbn in Hp; subst v.
  match goal with |- _ → ?G => set (concl := G) end.
  wf_unfold; wf_simpl. rewrite Hs; wf_simpl. rewrite Hb; wf_simpl.
  repeat wf_case; intros Hrun; try discriminate Hrun.
  all: injection Hrun as <-; subst concl; wf_simpl.
  all: do 3 eexists; do 4 (split; [reflexivity|]).
  all: split; [apply lookup_insert_eq|]; split; [wf_trace|]; done.
Qed.

Lemma fulfilled_run_witness :
  fsPath pom_uri = JStr "/work/app/pom.xml"
  ∧ (posix_basename "/work/app/pom.xml" ∈ supportedFiles)
  ∧ generateRHDAReport (H := posix) example_default_path env_success 7 pom_uri
      fresh_world
    = (Val (Fulfilled tt), snd (example_run env_success pom_uri))
  ∧ ∃ R p,
      stackAnalysisService_answer env_success (JStr "/work/app/pom.xml")
        (build_options (globalConfig env_success)) = SvcReturns (Fulfilled R)
      ∧ w_files (snd (example_run env_success pom_uri)) !! p = Some R.
Proof.
  assert (Hb : posix_basename "/work/app/pom.xml" ∈ supportedFiles).
  { apply includes_spec. vm_compute. reflexivity. }
  assert (Hrun :
    generateRHDAReport (H := posix) example_default_path env_success 7 pom_uri
      fresh_world
    = (Val (Fulfilled tt), snd (example_run env_success pom_uri))).
  { vm_compute. reflexivity. }
  split; [reflexivity|]. split; [exact Hb|]. split; [exact Hrun|].
  destruct (fulfilled_run_has_written_the_report (H := posix)
              example_default_path env_success 7 pom_uri "/work/app/pom.xml"
              fresh_world _ eq_refl ltac:(discriminate) Hb Hrun)
    as (R & p & tr & _ & Hsvc & _ & _ & Hfile & _).
  exists R, p. split; assumption.
Defined.

(** ** Calls to the collaborators *)

(** X12: no collaborator is called twice in a run and nothing is
    retried: at most one authorization (with the given context), one panel
    opening, one analysis call (with the manifest path and the constructed
    option bag), one mkdir, one file write and one informational message;
    and the message is shown only in runs that do not authorize. *)
Theorem no_collaborator_is_called_twice `{PathModule}
    (dflt : string) (env : Env) (ctx : context) (uri : Uri) (w : World) :
  ∃ pr w' tr,
    generateRHDAReport dflt env ctx uri w = (Val pr, w')
    ∧ run_trace w w' tr
    ∧ (authorize_calls tr = [] ∨ authorize_calls tr = [ctx])
    ∧ (panel_openings tr ≤ 1)%nat
    ∧ (analysis_calls tr = []
       ∨ analysis_calls tr = [(fsPath uri, build_options (globalConfig env))])
    ∧ (length (mkdir_calls tr) ≤ 1)%nat
    ∧ (length (write_calls tr) ≤ 1)%nat
    ∧ (length (information_messages tr) ≤ 1)%nat
    ∧ (length (information_messages tr) + length (authorize_calls tr) ≤ 1)%nat.
Proof.
  destruct uri as [[| |[]|s]].
  all: wf_unfold; wf_simpl; wf_guard.
  all: repeat wf_case.
  all: wf_outcome.
  all: split_and!; try (cbn; lia); by eauto.
Qed.

(** ** The option bag (lines 68-88) *)

(** X11: whatever the credentials are, the option bag carries the ten
    keys of the object literal with the configured values; its keys are
    those ten plus the scanner key and the SCA pair when their guards
    pass, so it has between ten and thirteen entries. *)
Theorem option_bag_always_carries_the_base_keys (cfg : Config) :
  build_options cfg !! "RHDA_TOKEN" = Some (telemetryId cfg)
  ∧ build_options cfg !! "RHDA_SOURCE" = Some (utmSource cfg)
  ∧ build_options cfg !! "MATCH_MANIFEST_VERSIONS"
    = Some (matchManifestVersions cfg)
  ∧ build_options cfg !! "EXHORT_MVN_PATH" = Some (exhortMvnPath cfg)
  ∧ build_options cfg !! "EXHORT_NPM_PATH" = Some (exhortNpmPath cfg)
  ∧ build_options cfg !! "EXHORT_GO_PATH" = Some (exhortGoPath cfg)
  ∧ build_options cfg !! "EXHORT_PYTHON3_PATH" = Some (exhortPython3Path cfg)
  ∧ build_options cfg !! "EXHORT_PIP3_PATH" = Some (exhortPip3Path cfg)
  ∧ build_options cfg !! "EXHORT_PYTHON_PATH" = Some (exhortPythonPath cfg)
  ∧ build_options cfg !! "EXHORT_PIP_PATH" = Some (exhortPipPath cfg)
  ∧ dom (build_options cfg)
    = list_to_set base_keys
      ∪ (if strict_neq (exhortSnykToken cfg) (JStr EmptyString)
         then {["EXHORT_SNYK_TOKEN"]} else ∅)
      ∪ (if strict_neq (exhortOSSIndexUser cfg) (JStr EmptyString)
            && strict_neq (exhortOSSIndexToken cfg) (JStr EmptyString)
         then {["EXHORT_OSS_INDEX_USER"; "EXHORT_OSS_INDEX_TOKEN"]} else ∅)
  ∧ (10 ≤ size (build_options cfg) ≤ 13)%nat.
Proof.
  assert (Hdom : dom (build_options cfg)
    = list_to_set base_keys
      ∪ (if strict_neq (exhortSnykToken cfg) (JStr EmptyString)
         then {["EXHORT_SNYK_TOKEN"]} else ∅)
      ∪ (if strict_neq (exhortOSSIndexUser cfg) (JStr EmptyString)
            && strict_neq (exhortOSSIndexToken cfg) (JStr EmptyString)
         then {["EXHORT_OSS_INDEX_USER"; "EXHORT_OSS_INDEX_TOKEN"]} else ∅)).
  { unfold build_options, add_oss_index, add_snyk_token, base_options.
    destruct (strict_neq (exhortSnykToken cfg) _),
             (strict_neq (exhortOSSIndexUser cfg) _ && _);
      rewrite !dom_insert_L, dom_empty_L; cbn [list_to_set base_keys];
      set_solver. }
  split_and!; try exact Hdom.
  1-10: unfold build_options, add_oss_index, add_snyk_token, base_options;
    destruct (strict_neq (exhortSnykToken cfg) _),
             (strict_neq (exhortOSSIndexUser cfg) _ && _);
    repeat (rewrite lookup_insert_ne by done); apply lookup_insert_eq.
  all: rewrite <- size_dom, Hdom;
    destruct (strict_neq (exhortSnykToken cfg) _),
             (strict_neq (exhortOSSIndexUser cfg) _ && _);
    vm_compute; lia.
Qed.

(** ** Opening the panel (lines 132-135) *)

(** X13: [triggerWebviewPanel] hands back the state of the authorization
    promise; it opens the panel exactly when the authorization is
    fulfilled, after it, and then a panel exists; otherwise the
    authorization call is all it does.  It never touches the disk. *)
Theorem panel_is_opened_only_after_authorization
    (env : Env) (ctx : context) (w : World) :
  ∃ w' tr,
    triggerWebviewPanel env ctx w = (Val (authorizeRHDA_answer env ctx), w')
    ∧ run_trace w w' tr
    ∧ authorize_calls tr = [ctx]
    ∧ (authorizeRHDA_answer env ctx = Fulfilled tt
       ↔ tr = [EvAuthorize ctx; EvCreateOrShowPanel])
    ∧ (authorizeRHDA_answer env ctx ≠ Fulfilled tt
       ↔ tr = [EvAuthorize ctx])
    ∧ (panel_openings tr = 1 → w_panel w' = true)
    ∧ w_dirs w' = w_dirs w
    ∧ w_files w' = w_files w.
Proof.
  wf_unfold; wf_simpl. repeat wf_case; wf_result.
  all: split_and!; try done; try (split; done).
  all: split; try done; by intros [].
Qed.
